(** * VrepHelper: the V-REP service adapter of TAPIR

    A shallow embedding of [src/problems/shared/ros/VrepHelper.cpp].

    The adapter owns one bit of state ([running_]), seven service clients
    and one subscription.  Everything else belongs to ROS and to the
    simulator: the undelivered notifications, the requests that went out,
    and whatever the simulator answers.  The methods are written in a small
    state monad over the pair (adapter object, ROS side); the one
    way a method can have no defined result, the unchecked [operator[]] of
    [copyObject], is the monad's error. *)

From Stdlib Require Import ZArith List String Bool Lia.
From Stdlib Require Import Floats.PrimFloat.
Import ListNotations.
Local Open Scope string_scope.
Local Open Scope list_scope.
Local Open Scope Z_scope.

(** ** C++ scalars *)

(** A signed integer of [bits] bits, as the value in
    [-2^(bits-1), 2^(bits-1)) congruent to [v]. *)
Definition wrap (bits v : Z) : Z :=
  (v + 2 ^ (bits - 1)) mod 2 ^ bits - 2 ^ (bits - 1).

(** [long] to [int] ([std::vector<int>::push_back] of a [long], and the
    assignment of a [long] to an [int32] message field). *)
Definition int_of_long (v : Z) : Z := wrap 32 v.

(** ** Messages

    The message and service types come from generated headers
    ([tapir/simRos*.h], [geometry_msgs/*.h]); the records keep the fields
    the adapter touches, typed as in the service definitions of
    [vrep_common].  A C++ [float] is kept as the binary64 value it widens
    to when stored in a [float64] message field. *)

Module std_msgs.
Record Header := { seq : Z; stamp : Z * Z; frame_id : string }.
Record Int32 := { data : Z }.
End std_msgs.

Module geometry_msgs.
Record Point := { x : float; y : float; z : float }.
Record Quaternion := { qx : float; qy : float; qz : float; qw : float }.
Record Pose := { position : Point; orientation : Quaternion }.
Record PoseStamped := { header : std_msgs.Header; pose : Pose }.
End geometry_msgs.

(** [tapir::VrepInfo], of which the callback reads [simulatorState.data]. *)
Record VrepInfo := { simulatorState : std_msgs.Int32 }.

(** A service object: the request the caller fills in and the response
    [call] overwrites. *)
Record Srv (Req Resp : Type) := { request : Req; response : Resp }.
Arguments Build_Srv {Req Resp} _ _.
Arguments request {Req Resp} _.
Arguments response {Req Resp} _.

Definition set_request {Req Resp} (srv : Srv Req Resp) (req : Req) :=
  {| request := req; response := response srv |}.
Definition set_response {Req Resp} (srv : Srv Req Resp) (resp : Resp) :=
  {| request := request srv; response := resp |}.

Module simRosStartSimulation.
Record Request := { }.
Record Response := { result : Z }.
Definition t := Srv Request Response.
Definition new : t := {| request := Build_Request; response := {| result := 0 |} |}.
End simRosStartSimulation.

Module simRosStopSimulation.
Record Request := { }.
Record Response := { result : Z }.
Definition t := Srv Request Response.
Definition new : t := {| request := Build_Request; response := {| result := 0 |} |}.
End simRosStopSimulation.

Module simRosCopyPasteObjects.
Record Request := { objectHandles : list Z }.
Record Response := { newObjectHandles : list Z }.
Definition t := Srv Request Response.
Definition new : t :=
  {| request := {| objectHandles := [] |}; response := {| newObjectHandles := [] |} |}.
End simRosCopyPasteObjects.

Module simRosGetObjectHandle.
Record Request := { objectName : string }.
Record Response := { handle : Z }.
Definition t := Srv Request Response.
Definition new : t :=
  {| request := {| objectName := EmptyString |}; response := {| handle := 0 |} |}.
End simRosGetObjectHandle.

Definition origin : geometry_msgs.Point :=
  {| geometry_msgs.x := 0%float; geometry_msgs.y := 0%float; geometry_msgs.z := 0%float |}.

Module simRosSetObjectPosition.
Record Request :=
  { handle : Z; relativeToObjectHandle : Z; position : geometry_msgs.Point }.
Record Response := { result : Z }.
Definition t := Srv Request Response.
Definition new : t :=
  {| request := {| handle := 0; relativeToObjectHandle := 0; position := origin |};
     response := {| result := 0 |} |}.
End simRosSetObjectPosition.

Definition blank_pose : geometry_msgs.PoseStamped :=
  {| geometry_msgs.header :=
       {| std_msgs.seq := 0; std_msgs.stamp := (0, 0); std_msgs.frame_id := EmptyString |};
     geometry_msgs.pose :=
       {| geometry_msgs.position := origin;
          geometry_msgs.orientation :=
            {| geometry_msgs.qx := 0%float; geometry_msgs.qy := 0%float;
               geometry_msgs.qz := 0%float; geometry_msgs.qw := 0%float |} |} |}.

Module simRosGetObjectPose.
Record Request := { handle : Z; relativeToObjectHandle : Z }.
Record Response := { result : Z; pose : geometry_msgs.PoseStamped }.
Definition t := Srv Request Response.
Definition new : t :=
  {| request := {| handle := 0; relativeToObjectHandle := 0 |};
     response := {| result := 0; pose := blank_pose |} |}.
End simRosGetObjectPose.

Module simRosLoadScene.
Record Request := { fileName : string }.
Record Response := { result : Z }.
Definition t := Srv Request Response.
Definition new : t :=
  {| request := {| fileName := EmptyString |}; response := {| result := 0 |} |}.
End simRosLoadScene.

(** What goes out on the network: the service addressed and the request. *)
Inductive Wire :=
| StartSimulationCall (service : string) (req : simRosStartSimulation.Request)
| StopSimulationCall (service : string) (req : simRosStopSimulation.Request)
| CopyPasteObjectsCall (service : string) (req : simRosCopyPasteObjects.Request)
| GetObjectHandleCall (service : string) (req : simRosGetObjectHandle.Request)
| SetObjectPositionCall (service : string) (req : simRosSetObjectPosition.Request)
| GetObjectPoseCall (service : string) (req : simRosGetObjectPose.Request)
| LoadSceneCall (service : string) (req : simRosLoadScene.Request).

(** The reference frame a request names, for the requests that name one. *)
Definition frame_of (w : Wire) : option Z :=
  match w with
  | SetObjectPositionCall _ req => Some (simRosSetObjectPosition.relativeToObjectHandle req)
  | GetObjectPoseCall _ req => Some (simRosGetObjectPose.relativeToObjectHandle req)
  | _ => None
  end.

(** ** The adapter object *)

Definition NodeHandle := nat.

(** A [ros::ServiceClient]: [None] is a default-constructed (invalid)
    client, [Some name] one obtained from [NodeHandle::serviceClient]. *)
Definition ServiceClient := option string.

Record Subscriber := { topic : string; queue_size : nat }.

Record VrepHelper := {
  node_ : option NodeHandle;
  startClient_ : ServiceClient;
  stopClient_ : ServiceClient;
  copyClient_ : ServiceClient;
  handleClient_ : ServiceClient;
  moveClient_ : ServiceClient;
  poseClient_ : ServiceClient;
  loadClient_ : ServiceClient;
  infoSub_ : option Subscriber;
  running_ : bool
}.

Definition set_running_ (b : bool) (h : VrepHelper) : VrepHelper :=
  {| node_ := node_ h;
     startClient_ := startClient_ h; stopClient_ := stopClient_ h;
     copyClient_ := copyClient_ h; handleClient_ := handleClient_ h;
     moveClient_ := moveClient_ h; poseClient_ := poseClient_ h;
     loadClient_ := loadClient_ h;
     infoSub_ := infoSub_ h;
     running_ := b |}.

(** [VrepHelper::infoCallback]. *)
Definition infoCallback (msg : VrepInfo) (h : VrepHelper) : VrepHelper :=
  let status := std_msgs.data (simulatorState msg) in
  set_running_ (status =? 1) h.

(** Deliveries, oldest first. *)
Definition deliver (msgs : list VrepInfo) (h : VrepHelper) : VrepHelper :=
  fold_left (fun h msg => infoCallback msg h) msgs h.

(** The subscription queue: a new message goes to the back, and a full
    queue (of a positive [queue_size]) gives up its oldest entries. *)
Definition enqueue (size : nat) (q : list VrepInfo) (msg : VrepInfo) : list VrepInfo :=
  let q' := q ++ [msg] in
  match size with
  | O => q'
  | _ => skipn (List.length q' - size) q'
  end.

(** ** The ROS side and the simulator *)

Section Adapter.

Set Implicit Arguments.

(** The simulator's own state. *)
Variable World : Type.

(** What a blocking call comes back with: the response when the call
    went through ([None] when it did not: [call] then returns false and
    leaves the response as it was constructed), the notifications the
    simulator published in the meantime, and the simulator afterwards. *)
Record Outcome (Resp : Type) := {
  reply : option Resp;
  published : list VrepInfo;
  next : World
}.
Arguments reply {Resp} _.
Arguments published {Resp} _.
Arguments next {Resp} _.

Definition Service (Req Resp : Type) := string -> Req -> World -> Outcome Resp.

(** The seven services of the simulator, each addressed by name. *)
Record Remote := {
  startSimulation :
    Service simRosStartSimulation.Request simRosStartSimulation.Response;
  stopSimulation :
    Service simRosStopSimulation.Request simRosStopSimulation.Response;
  copyPasteObjects :
    Service simRosCopyPasteObjects.Request simRosCopyPasteObjects.Response;
  getObjectHandle :
    Service simRosGetObjectHandle.Request simRosGetObjectHandle.Response;
  setObjectPosition :
    Service simRosSetObjectPosition.Request simRosSetObjectPosition.Response;
  getObjectPose :
    Service simRosGetObjectPose.Request simRosGetObjectPose.Response;
  loadSceneService :
    Service simRosLoadScene.Request simRosLoadScene.Response
}.

Variable vrep : Remote.

(** [ros::package::getPath]. *)
Variable getPath : string -> string.

Record Ros := {
  pending : list VrepInfo;   (* received on /vrep/info, callback not yet run *)
  sent : list Wire;          (* requests gone out, oldest first *)
  world : World
}.

Record State := { self : VrepHelper; ros : Ros }.

Inductive Result (A : Type) :=
| Ok (a : A) (s : State)
| Undefined.
Arguments Ok {A} _ _.
Arguments Undefined {A}.

Definition M (A : Type) := State -> Result A.

Definition ret {A} (a : A) : M A := fun s => Ok a s.

Definition bind {A B} (m : M A) (k : A -> M B) : M B := fun s =>
  match m s with
  | Ok a s' => k a s'
  | Undefined => Undefined
  end.

Definition undefined {A} : M A := fun _ => Undefined.

Notation "x <- m ;; k" := (bind m (fun x => k))
  (at level 61, m at next level, right associativity).
Notation "m ;; k" := (bind m (fun _ => k))
  (at level 61, right associativity).

Definition returned {A} (r : Result A) : option A :=
  match r with Ok a _ => Some a | Undefined => None end.

Definition final {A} (r : Result A) : option State :=
  match r with Ok _ s => Some s | Undefined => None end.

(** A notification reaches the process: it is queued when the adapter
    has subscribed, and lost otherwise. *)
Definition receive (msg : VrepInfo) (s : State) : State :=
  match infoSub_ (self s) with
  | None => s
  | Some sub =>
      {| self := self s;
         ros := {| pending := enqueue (queue_size sub) (pending (ros s)) msg;
                   sent := sent (ros s);
                   world := world (ros s) |} |}
  end.

Definition arrive (msgs : list VrepInfo) (s : State) : State :=
  fold_left (fun s msg => receive msg s) msgs s.

(** [ros::spinOnce]: every queued callback runs, oldest first. *)
Definition spinOnce : M unit := fun s =>
  Ok tt {| self := deliver (pending (ros s)) (self s);
           ros := {| pending := [];
                     sent := sent (ros s);
                     world := world (ros s) |} |}.

(** The response member of [srv] once [client.call(srv)] is over. *)
Definition answer {Req Resp} (client : ServiceClient) (serve : Service Req Resp)
    (srv : Srv Req Resp) (s : State) : Resp :=
  match client with
  | None => response srv
  | Some name =>
      match reply (serve name (request srv) (world (ros s))) with
      | Some r => r
      | None => response srv
      end
  end.

(** The state once [client.call(srv)] is over; callbacks do not run
    inside [call], so what was published is queued. *)
Definition after {Req Resp} (client : ServiceClient) (serve : Service Req Resp)
    (wire : string -> Req -> Wire) (srv : Srv Req Resp) (s : State) : State :=
  match client with
  | None => s
  | Some name =>
      let o := serve name (request srv) (world (ros s)) in
      arrive (published o)
        {| self := self s;
           ros := {| pending := pending (ros s);
                     sent := sent (ros s) ++ [wire name (request srv)];
                     world := next o |} |}
  end.

(** [client.call(srv)], for the client held in a member of the adapter.
    The boolean [call] returns is dropped by every caller, so the model
    hands back the service object alone. *)
Definition call {Req Resp} (client : VrepHelper -> ServiceClient)
    (serve : Service Req Resp) (wire : string -> Req -> Wire)
    (srv : Srv Req Resp) : M (Srv Req Resp) := fun s =>
  Ok (set_response srv (answer (client (self s)) serve srv s))
     (after (client (self s)) serve wire srv s).

(** [v[i]] on a [std::vector]: no bounds check. *)
Definition index {A} (v : list A) (i : nat) : M A :=
  match nth_error v i with
  | Some a => ret a
  | None => undefined
  end.

(** *** Construction *)

Definition serviceClient (node : NodeHandle) (name : string) : ServiceClient :=
  Some name.

Definition subscribe (node : NodeHandle) (name : string) (size : nat) : option Subscriber :=
  Some {| topic := name; queue_size := size |}.

(** [VrepHelper::setRosNode].  The new subscription starts with nothing
    queued. *)
Definition setRosNode (node : NodeHandle) : M unit := fun s =>
  Ok tt
     {| self :=
          {| node_ := Some node;
             startClient_ := serviceClient node "vrep/simRosStartSimulation";
             stopClient_ := serviceClient node "vrep/simRosStopSimulation";
             copyClient_ := serviceClient node "vrep/simRosCopyPasteObjects";
             handleClient_ := serviceClient node "vrep/simRosGetObjectHandle";
             moveClient_ := serviceClient node "vrep/simRosSetObjectPosition";
             poseClient_ := serviceClient node "vrep/simRosGetObjectPose";
             loadClient_ := serviceClient node "vrep/simRosLoadScene";
             infoSub_ := subscribe node "/vrep/info" 1;
             running_ := running_ (self s) |};
        ros := {| pending := [];
                  sent := sent (ros s);
                  world := world (ros s) |} |}.

(** The members as the constructors' initialiser lists leave them:
    [running_(false)], everything else default-constructed. *)
Definition members : VrepHelper :=
  {| node_ := None;
     startClient_ := None; stopClient_ := None; copyClient_ := None;
     handleClient_ := None; moveClient_ := None; poseClient_ := None;
     loadClient_ := None;
     infoSub_ := None;
     running_ := false |}.

(** The ROS side when the process starts: nothing received, nothing sent. *)
Definition boot (w : World) : Ros :=
  {| pending := []; sent := []; world := w |}.

(** [VrepHelper::VrepHelper()]. *)
Definition VrepHelper_new (w : World) : Result unit :=
  Ok tt {| self := members; ros := boot w |}.

(** [VrepHelper::VrepHelper(ros::NodeHandle *node)]. *)
Definition VrepHelper_new_node (node : NodeHandle) (w : World) : Result unit :=
  setRosNode node {| self := members; ros := boot w |}.

(** [ros::ServiceClient::isValid]. *)
Definition isValid (client : ServiceClient) : bool :=
  match client with Some _ => true | None => false end.

(** Every client of the adapter is valid, as [setRosNode] leaves them. *)
Definition connected (h : VrepHelper) : bool :=
  isValid (startClient_ h) && isValid (stopClient_ h) && isValid (copyClient_ h)
  && isValid (handleClient_ h) && isValid (moveClient_ h) && isValid (poseClient_ h)
  && isValid (loadClient_ h).

(** *** The methods *)

(** [VrepHelper::start]. *)
Definition start : M bool :=
  let startSrv := simRosStartSimulation.new in
  startSrv <- call startClient_ (startSimulation vrep) StartSimulationCall startSrv ;;
  ret (negb (simRosStartSimulation.result (response startSrv) =? -1)).

(** [VrepHelper::stop]. *)
Definition stop : M bool :=
  let stopSrv := simRosStopSimulation.new in
  stopSrv <- call stopClient_ (stopSimulation vrep) StopSimulationCall stopSrv ;;
  ret (negb (simRosStopSimulation.result (response stopSrv) =? -1)).

(** [VrepHelper::getHandle]. *)
Definition getHandle (name : string) : M Z :=
  let handleSrv := simRosGetObjectHandle.new in
  let handleSrv :=
    set_request handleSrv {| simRosGetObjectHandle.objectName := name |} in
  handleSrv <- call handleClient_ (getObjectHandle vrep) GetObjectHandleCall handleSrv ;;
  ret (simRosGetObjectHandle.handle (response handleSrv)).

(** [VrepHelper::moveObject(long handle, float x, float y, float z)]. *)
Definition moveObject (handle : Z) (x y z : float) : M bool :=
  let msg := {| geometry_msgs.x := x; geometry_msgs.y := y; geometry_msgs.z := z |} in
  let moveSrv := simRosSetObjectPosition.new in
  let moveSrv :=
    set_request moveSrv
      {| simRosSetObjectPosition.handle := int_of_long handle;
         simRosSetObjectPosition.relativeToObjectHandle := -1;
         simRosSetObjectPosition.position := msg |} in
  moveSrv <- call moveClient_ (setObjectPosition vrep) SetObjectPositionCall moveSrv ;;
  ret (negb (simRosSetObjectPosition.result (response moveSrv) =? -1)).

(** [VrepHelper::moveObject(std::string name, float x, float y, float z)]. *)
Definition moveObject_name (name : string) (x y z : float) : M bool :=
  handle <- getHandle name ;;
  moveObject handle x y z.

(** [VrepHelper::copyObject]. *)
Definition copyObject (handle : Z) : M Z :=
  let handles := [] ++ [int_of_long handle] in
  let copySrv := simRosCopyPasteObjects.new in
  let copySrv :=
    set_request copySrv {| simRosCopyPasteObjects.objectHandles := handles |} in
  copySrv <- call copyClient_ (copyPasteObjects vrep) CopyPasteObjectsCall copySrv ;;
  index (simRosCopyPasteObjects.newObjectHandles (response copySrv)) 0.

(** [VrepHelper::getPose]. *)
Definition getPose (handle : Z) : M geometry_msgs.PoseStamped :=
  let poseSrv := simRosGetObjectPose.new in
  let poseSrv :=
    set_request poseSrv
      {| simRosGetObjectPose.handle := int_of_long handle;
         simRosGetObjectPose.relativeToObjectHandle := -1 |} in
  poseSrv <- call poseClient_ (getObjectPose vrep) GetObjectPoseCall poseSrv ;;
  ret (simRosGetObjectPose.pose (response poseSrv)).

(** [VrepHelper::isRunning]. *)
Definition isRunning : M bool :=
  spinOnce ;;
  fun s => Ok (running_ (self s)) s.

(** [VrepHelper::loadScene(std::string fullPath)]. *)
Definition loadScene (fullPath : string) : M bool :=
  let loadSrv := simRosLoadScene.new in
  let loadSrv := set_request loadSrv {| simRosLoadScene.fileName := fullPath |} in
  loadSrv <- call loadClient_ (loadSceneService vrep) LoadSceneCall loadSrv ;;
  ret (simRosLoadScene.result (response loadSrv) =? 1).

(** [VrepHelper::loadScene(std::string problemName,
    std::string relativePath, std::string packageName)]. *)
Definition loadScene_package (problemName relativePath packageName : string) : M bool :=
  let problemPath := ((getPath packageName ++ "/problems/") ++ problemName)%string in
  let fullPath := ((problemPath ++ "/") ++ relativePath)%string in
  loadScene fullPath.

(** *** The public interface as one type *)

Inductive operation :=
| Start
| Stop
| GetHandle (name : string)
| MoveObjectName (name : string) (x y z : float)
| MoveObject (handle : Z) (x y z : float)
| CopyObject (handle : Z)
| GetPose (handle : Z)
| IsRunning
| LoadScene (fullPath : string)
| LoadScenePackage (problemName relativePath packageName : string).

(** What a method hands back to its caller, by C++ return type. *)
Inductive value :=
| Bool (b : bool)
| Long (v : Z)
| PoseStamped (p : geometry_msgs.PoseStamped).

Definition perform (op : operation) : M value :=
  match op with
  | Start => b <- start ;; ret (Bool b)
  | Stop => b <- stop ;; ret (Bool b)
  | GetHandle name => v <- getHandle name ;; ret (Long v)
  | MoveObjectName name x y z => b <- moveObject_name name x y z ;; ret (Bool b)
  | MoveObject handle x y z => b <- moveObject handle x y z ;; ret (Bool b)
  | CopyObject handle => v <- copyObject handle ;; ret (Long v)
  | GetPose handle => p <- getPose handle ;; ret (PoseStamped p)
  | IsRunning => b <- isRunning ;; ret (Bool b)
  | LoadScene fullPath => b <- loadScene fullPath ;; ret (Bool b)
  | LoadScenePackage problemName relativePath packageName =>
      b <- loadScene_package problemName relativePath packageName ;; ret (Bool b)
  end.

Unset Implicit Arguments.

End Adapter.

Arguments Undefined {World A}.

(** ** A stand-in simulator

    It answers every call: result code [R] where the response has one,
    [handle] for a handle lookup, [copies] for a copy, and publishes
    [news] during each call. *)

Definition mock_reply {Resp : Type} (news : list VrepInfo) (r : Resp) : Outcome unit Resp :=
  {| reply := Some r; published := news; next := tt |}.

Definition mock (R handle : Z) (copies : list Z) (news : list VrepInfo) : Remote unit :=
  {| startSimulation := fun _ _ _ =>
       mock_reply news {| simRosStartSimulation.result := R |};
     stopSimulation := fun _ _ _ =>
       mock_reply news {| simRosStopSimulation.result := R |};
     copyPasteObjects := fun _ _ _ =>
       mock_reply news {| simRosCopyPasteObjects.newObjectHandles := copies |};
     getObjectHandle := fun _ _ _ =>
       mock_reply news {| simRosGetObjectHandle.handle := handle |};
     setObjectPosition := fun _ _ _ =>
       mock_reply news {| simRosSetObjectPosition.result := R |};
     getObjectPose := fun _ _ _ =>
       mock_reply news {| simRosGetObjectPose.result := R;
                          simRosGetObjectPose.pose := blank_pose |};
     loadSceneService := fun _ _ _ =>
       mock_reply news {| simRosLoadScene.result := R |} |}.

(** A package index that knows one package. *)
Definition mock_getPath (packageName : string) : string :=
  if String.eqb packageName "tapir" then "/opt/ros/tapir" else EmptyString.

(** The state a result leaves behind, [fallback] when it leaves none. *)
Definition state_of {World A : Type} (r : Result World A) (fallback : State World) : State World :=
  match r with Ok _ s => s | Undefined => fallback end.

(** An adapter built by the default constructor, and one built on a node. *)
Definition detached : State unit :=
  state_of (VrepHelper_new tt) {| self := members; ros := boot tt |}.

Definition attached : State unit :=
  state_of (VrepHelper_new_node 7%nat tt) {| self := members; ros := boot tt |}.

Definition info (status : Z) : VrepInfo :=
  {| simulatorState := {| std_msgs.data := status |} |}.

(** ** The service objects as the methods fill them in *)

Definition handleSrv (name : string) : simRosGetObjectHandle.t :=
  set_request simRosGetObjectHandle.new {| simRosGetObjectHandle.objectName := name |}.

Definition moveSrv (handle : Z) (x y z : float) : simRosSetObjectPosition.t :=
  set_request simRosSetObjectPosition.new
    {| simRosSetObjectPosition.handle := int_of_long handle;
       simRosSetObjectPosition.relativeToObjectHandle := -1;
       simRosSetObjectPosition.position :=
         {| geometry_msgs.x := x; geometry_msgs.y := y; geometry_msgs.z := z |} |}.

Definition copySrv (handle : Z) : simRosCopyPasteObjects.t :=
  set_request simRosCopyPasteObjects.new
    {| simRosCopyPasteObjects.objectHandles := [int_of_long handle] |}.

Definition poseSrv (handle : Z) : simRosGetObjectPose.t :=
  set_request simRosGetObjectPose.new
    {| simRosGetObjectPose.handle := int_of_long handle;
       simRosGetObjectPose.relativeToObjectHandle := -1 |}.

Definition loadSrv (fullPath : string) : simRosLoadScene.t :=
  set_request simRosLoadScene.new {| simRosLoadScene.fileName := fullPath |}.

(** What one [call] puts on the network: one request from a valid client,
    nothing from an invalid one. *)
Definition outgoing {Req : Type} (client : ServiceClient)
    (wire : string -> Req -> Wire) (req : Req) : list Wire :=
  match client with
  | Some name => [wire name req]
  | None => []
  end.

(** A request that names a reference frame names the absolute one. *)
Definition absolute (w : Wire) : Prop :=
  forall frame, frame_of w = Some frame -> frame = -1.

(** The simulator answers every boolean-returning wrapper's call, and with
    result code [R]. *)
Definition returns_result {World : Type} (vrep : Remote World) (R : Z) : Prop :=
  (forall name req w,
     option_map simRosStartSimulation.result (reply (startSimulation vrep name req w))
     = Some R) /\
  (forall name req w,
     option_map simRosStopSimulation.result (reply (stopSimulation vrep name req w))
     = Some R) /\
  (forall name req w,
     option_map simRosSetObjectPosition.result (reply (setObjectPosition vrep name req w))
     = Some R) /\
  (forall name req w,
     option_map simRosLoadScene.result (reply (loadSceneService vrep name req w))
     = Some R).

(** ** Notions for the coverage properties *)

(** The request type of a wire entry is the one its service name announces
    ([setRosNode] pairs each client's service type with a name). *)
Definition addressed (w : Wire) : bool :=
  match w with
  | StartSimulationCall name _ => String.eqb name "vrep/simRosStartSimulation"
  | StopSimulationCall name _ => String.eqb name "vrep/simRosStopSimulation"
  | CopyPasteObjectsCall name _ => String.eqb name "vrep/simRosCopyPasteObjects"
  | GetObjectHandleCall name _ => String.eqb name "vrep/simRosGetObjectHandle"
  | SetObjectPositionCall name _ => String.eqb name "vrep/simRosSetObjectPosition"
  | GetObjectPoseCall name _ => String.eqb name "vrep/simRosGetObjectPose"
  | LoadSceneCall name _ => String.eqb name "vrep/simRosLoadScene"
  end.

(** The number of [call]s in a method's body, callee included. *)
Definition calls (op : operation) : nat :=
  match op with
  | IsRunning => 0
  | MoveObjectName _ _ _ _ => 2
  | _ => 1
  end.

(** Everything of the adapter object but the flag. *)
Definition wiring (h : VrepHelper) :=
  (node_ h,
   (startClient_ h, stopClient_ h, copyClient_ h, handleClient_ h,
    moveClient_ h, poseClient_ h, loadClient_ h),
   infoSub_ h).

(** [client.call(srv)] from state [s] does not go through: the client is
    invalid, or the service gives no reply. *)
Definition unanswered {World Req Resp : Type} (client : ServiceClient)
    (serve : Service World Req Resp) (srv : Srv Req Resp) (s : State World) : Prop :=
  match client with
  | None => True
  | Some name => reply (serve name (request srv) (world (ros s))) = None
  end.

(** The queue respects the subscription: nothing is queued without one,
    and no more than a positive [queue_size] with one. *)
Definition queue_within {World : Type} (s : State World) : Prop :=
  match infoSub_ (self s) with
  | None => pending (ros s) = []
  | Some sub =>
      (0 < queue_size sub)%nat ->
      (List.length (pending (ros s)) <= queue_size sub)%nat
  end.

(** The range of a C++ [int]. *)
Definition in_int_range (v : Z) : Prop := - 2 ^ 31 <= v < 2 ^ 31.

(** A simulator that cannot be reached: no call gets a reply. *)
Definition mock_silent : Remote unit :=
  {| startSimulation := fun _ _ _ => {| reply := None; published := []; next := tt |};
     stopSimulation := fun _ _ _ => {| reply := None; published := []; next := tt |};
     copyPasteObjects := fun _ _ _ => {| reply := None; published := []; next := tt |};
     getObjectHandle := fun _ _ _ => {| reply := None; published := []; next := tt |};
     setObjectPosition := fun _ _ _ => {| reply := None; published := []; next := tt |};
     getObjectPose := fun _ _ _ => {| reply := None; published := []; next := tt |};
     loadSceneService := fun _ _ _ => {| reply := None; published := []; next := tt |} |}.

(** An adapter built on a node, with a notification waiting. *)
Definition notified : State unit := arrive [info 0; info 1] attached.

(** * Properties *)

(** ** Strings, queues and deliveries *)

Lemma append_assoc (a b c : string) :
  ((a ++ b) ++ c)%string = (a ++ (b ++ c))%string.
Proof.
  induction a as [|ch a IH]; simpl.
  - reflexivity.
  - now rewrite IH.
Qed.

Lemma deliver_app (h : VrepHelper) (front back : list VrepInfo) :
  deliver (front ++ back) h = deliver back (deliver front h).
Proof. unfold deliver. apply fold_left_app. Qed.

Lemma deliver_last (h : VrepHelper) (msgs : list VrepInfo) (m : VrepInfo) :
  running_ (deliver (msgs ++ [m]) h) = (std_msgs.data (simulatorState m) =? 1).
Proof. rewrite deliver_app. reflexivity. Qed.

Lemma enqueue_keeps_newest (size : nat) (q : list VrepInfo) (m : VrepInfo) :
  exists older, enqueue size q m = older ++ [m].
Proof.
  unfold enqueue. destruct size as [|n].
  - now exists q.
  - exists (skipn (List.length (q ++ [m]) - S n) q).
    rewrite skipn_app.
    replace (List.length (q ++ [m]) - S n - List.length q)%nat with 0%nat.
    + reflexivity.
    + rewrite length_app. simpl. lia.
Qed.

Section Properties.

Variable World : Type.
Variable vrep : Remote World.
Variable getPath : string -> string.

(** ** What a call leaves of the state *)

Lemma receive_self (m : VrepInfo) (s : State World) : self (receive m s) = self s.
Proof. unfold receive. now destruct (infoSub_ (self s)). Qed.

Lemma receive_sent (m : VrepInfo) (s : State World) :
  sent (ros (receive m s)) = sent (ros s).
Proof. unfold receive. now destruct (infoSub_ (self s)). Qed.

Lemma arrive_self (msgs : list VrepInfo) (s : State World) :
  self (arrive msgs s) = self s.
Proof.
  revert s. induction msgs as [|m msgs IH]; intros s; simpl.
  - reflexivity.
  - unfold arrive in *. simpl. rewrite IH. apply receive_self.
Qed.

Lemma arrive_sent (msgs : list VrepInfo) (s : State World) :
  sent (ros (arrive msgs s)) = sent (ros s).
Proof.
  revert s. induction msgs as [|m msgs IH]; intros s; simpl.
  - reflexivity.
  - unfold arrive in *. simpl. rewrite IH. apply receive_sent.
Qed.

Lemma after_self {Req Resp : Type} (client : ServiceClient)
    (serve : Service World Req Resp) (wire : string -> Req -> Wire)
    (srv : Srv Req Resp) (s : State World) :
  self (after client serve wire srv s) = self s.
Proof.
  unfold after. destruct client as [name|]; [|reflexivity].
  now rewrite arrive_self.
Qed.

Lemma after_sent {Req Resp : Type} (client : ServiceClient)
    (serve : Service World Req Resp) (wire : string -> Req -> Wire)
    (srv : Srv Req Resp) (s : State World) :
  sent (ros (after client serve wire srv s)) =
  sent (ros s) ++ match client with
                  | Some name => [wire name (request srv)]
                  | None => []
                  end.
Proof.
  unfold after. destruct client as [name|].
  - now rewrite arrive_sent.
  - now rewrite app_nil_r.
Qed.

Lemma connected_clients (h : VrepHelper) :
  connected h = true ->
  (exists n, startClient_ h = Some n) /\ (exists n, stopClient_ h = Some n) /\
  (exists n, copyClient_ h = Some n) /\ (exists n, handleClient_ h = Some n) /\
  (exists n, moveClient_ h = Some n) /\ (exists n, poseClient_ h = Some n) /\
  (exists n, loadClient_ h = Some n).
Proof.
  unfold connected, isValid. intros H.
  repeat (apply andb_prop in H; destruct H as [H ?]).
  destruct (startClient_ h), (stopClient_ h), (copyClient_ h), (handleClient_ h),
    (moveClient_ h), (poseClient_ h), (loadClient_ h); try discriminate.
  repeat split; eexists; reflexivity.
Qed.

Lemma answer_field {Req Resp : Type} (field : Resp -> Z) (name : string)
    (serve : Service World Req Resp) (srv : Srv Req Resp) (s : State World)
    (R : Z) :
  option_map field (reply (serve name (request srv) (world (ros s)))) = Some R ->
  field (answer (Some name) serve srv s) = R.
Proof.
  unfold answer. destruct (reply _) as [r|]; simpl; intros H.
  - now injection H.
  - discriminate.
Qed.

(** ** The boolean wrappers *)

Ltac use_reply Hr :=
  match goal with
  | |- context [answer (Some ?n) ?serve ?srv ?s] =>
      rewrite (answer_field _ n serve srv s _ Hr)
  end.

Lemma start_result (s : State World) (name : string) (R : Z) :
  startClient_ (self s) = Some name ->
  option_map simRosStartSimulation.result
    (reply (startSimulation vrep name simRosStartSimulation.Build_Request (world (ros s))))
  = Some R ->
  returned (start vrep s) = Some (negb (R =? -1)).
Proof.
  intros Hc Hr. unfold start, bind, call, ret. simpl. rewrite Hc.
  now use_reply Hr.
Qed.

Lemma stop_result (s : State World) (name : string) (R : Z) :
  stopClient_ (self s) = Some name ->
  option_map simRosStopSimulation.result
    (reply (stopSimulation vrep name simRosStopSimulation.Build_Request (world (ros s))))
  = Some R ->
  returned (stop vrep s) = Some (negb (R =? -1)).
Proof.
  intros Hc Hr. unfold stop, bind, call, ret. simpl. rewrite Hc.
  now use_reply Hr.
Qed.

Lemma moveObject_result (s : State World) (name : string) (R handle : Z)
    (x y z : float) :
  moveClient_ (self s) = Some name ->
  option_map simRosSetObjectPosition.result
    (reply (setObjectPosition vrep name
              {| simRosSetObjectPosition.handle := int_of_long handle;
                 simRosSetObjectPosition.relativeToObjectHandle := -1;
                 simRosSetObjectPosition.position :=
                   {| geometry_msgs.x := x; geometry_msgs.y := y; geometry_msgs.z := z |} |}
              (world (ros s))))
  = Some R ->
  returned (moveObject vrep handle x y z s) = Some (negb (R =? -1)).
Proof.
  intros Hc Hr. unfold moveObject, bind, call, ret. simpl. rewrite Hc.
  now use_reply Hr.
Qed.

Lemma loadScene_result (s : State World) (name fullPath : string) (R : Z) :
  loadClient_ (self s) = Some name ->
  option_map simRosLoadScene.result
    (reply (loadSceneService vrep name {| simRosLoadScene.fileName := fullPath |}
              (world (ros s))))
  = Some R ->
  returned (loadScene vrep fullPath s) = Some (R =? 1).
Proof.
  intros Hc Hr. unfold loadScene, bind, call, ret. simpl. rewrite Hc.
  now use_reply Hr.
Qed.

(** [getHandle] always returns, and leaves the adapter object as it was. *)
Lemma getHandle_runs (name : string) (s : State World) :
  exists handle s', getHandle vrep name s = Ok handle s' /\ self s' = self s.
Proof.
  unfold getHandle, bind, call, ret. simpl.
  eexists. eexists. split; [reflexivity|]. apply after_self.
Qed.

(** C1, as amended.  When the simulator answers with result code [R] and the
    adapter's clients are valid, [start], [stop] and both [moveObject]
    overloads return [R != -1], while both [loadScene] overloads return
    [R == 1]. *)
Theorem boolean_wrappers_follow_result_code (R : Z) (s : State World) :
  returns_result vrep R ->
  connected (self s) = true ->
  returned (start vrep s) = Some (negb (R =? -1)) /\
  returned (stop vrep s) = Some (negb (R =? -1)) /\
  (forall handle x y z,
     returned (moveObject vrep handle x y z s) = Some (negb (R =? -1))) /\
  (forall name x y z,
     returned (moveObject_name vrep name x y z s) = Some (negb (R =? -1))) /\
  (forall fullPath, returned (loadScene vrep fullPath s) = Some (R =? 1)) /\
  (forall problemName relativePath packageName,
     returned (loadScene_package vrep getPath problemName relativePath packageName s)
     = Some (R =? 1)).
Proof.
  intros (Hstart & Hstop & Hmove & Hload) Hvalid.
  destruct (connected_clients _ Hvalid)
    as ([n1 C1] & [n2 C2] & _ & _ & [n5 C5] & _ & [n7 C7]).
  repeat split.
  - eapply start_result; eauto.
  - eapply stop_result; eauto.
  - intros. eapply moveObject_result; eauto.
  - intros name x y z. unfold moveObject_name, bind.
    destruct (getHandle_runs name s) as (handle & s1 & Hrun & Hself).
    rewrite Hrun. eapply moveObject_result; [rewrite Hself|]; eauto.
  - intros. eapply loadScene_result; eauto.
  - intros. unfold loadScene_package. eapply loadScene_result; eauto.
Qed.

(** ** Each method as one exchange *)

Lemma start_exchange (s : State World) :
  start vrep s =
  Ok (negb (simRosStartSimulation.result
              (answer (startClient_ (self s)) (startSimulation vrep)
                 simRosStartSimulation.new s) =? -1))
     (after (startClient_ (self s)) (startSimulation vrep) StartSimulationCall
        simRosStartSimulation.new s).
Proof. reflexivity. Qed.

Lemma stop_exchange (s : State World) :
  stop vrep s =
  Ok (negb (simRosStopSimulation.result
              (answer (stopClient_ (self s)) (stopSimulation vrep)
                 simRosStopSimulation.new s) =? -1))
     (after (stopClient_ (self s)) (stopSimulation vrep) StopSimulationCall
        simRosStopSimulation.new s).
Proof. reflexivity. Qed.

Lemma getHandle_exchange (name : string) (s : State World) :
  getHandle vrep name s =
  Ok (simRosGetObjectHandle.handle
        (answer (handleClient_ (self s)) (getObjectHandle vrep) (handleSrv name) s))
     (after (handleClient_ (self s)) (getObjectHandle vrep) GetObjectHandleCall
        (handleSrv name) s).
Proof. reflexivity. Qed.

Lemma moveObject_exchange (handle : Z) (x y z : float) (s : State World) :
  moveObject vrep handle x y z s =
  Ok (negb (simRosSetObjectPosition.result
              (answer (moveClient_ (self s)) (setObjectPosition vrep)
                 (moveSrv handle x y z) s) =? -1))
     (after (moveClient_ (self s)) (setObjectPosition vrep) SetObjectPositionCall
        (moveSrv handle x y z) s).
Proof. reflexivity. Qed.

Lemma copyObject_exchange (handle : Z) (s : State World) :
  copyObject vrep handle s =
  match simRosCopyPasteObjects.newObjectHandles
          (answer (copyClient_ (self s)) (copyPasteObjects vrep) (copySrv handle) s)
  with
  | first :: _ =>
      Ok first
         (after (copyClient_ (self s)) (copyPasteObjects vrep) CopyPasteObjectsCall
            (copySrv handle) s)
  | [] => Undefined
  end.
Proof.
  unfold copyObject, bind, call, index. simpl.
  change (set_request simRosCopyPasteObjects.new
            {| simRosCopyPasteObjects.objectHandles := [int_of_long handle] |})
    with (copySrv handle).
  now destruct (simRosCopyPasteObjects.newObjectHandles _).
Qed.

Lemma getPose_exchange (handle : Z) (s : State World) :
  getPose vrep handle s =
  Ok (simRosGetObjectPose.pose
        (answer (poseClient_ (self s)) (getObjectPose vrep) (poseSrv handle) s))
     (after (poseClient_ (self s)) (getObjectPose vrep) GetObjectPoseCall
        (poseSrv handle) s).
Proof. reflexivity. Qed.

Lemma loadScene_exchange (fullPath : string) (s : State World) :
  loadScene vrep fullPath s =
  Ok (simRosLoadScene.result
        (answer (loadClient_ (self s)) (loadSceneService vrep) (loadSrv fullPath) s) =? 1)
     (after (loadClient_ (self s)) (loadSceneService vrep) LoadSceneCall
        (loadSrv fullPath) s).
Proof. reflexivity. Qed.

Lemma isRunning_exchange (s : State World) :
  isRunning s =
  Ok (running_ (deliver (pending (ros s)) (self s)))
     {| self := deliver (pending (ros s)) (self s);
        ros := {| pending := []; sent := sent (ros s); world := world (ros s) |} |}.
Proof. reflexivity. Qed.

(** ** Failure reporting *)

(** C2, as amended.  What each method surfaces to its caller: [start],
    [stop] and [moveObject] the boolean [result != -1] of the one response
    they look at, [loadScene] the boolean [result == 1]; [getHandle] the
    response's handle as a [long] (a missing handle is the value the service
    put there, and the by-name [moveObject] passes it on unchecked);
    [copyObject] and [getPose] a response field with no check at all;
    [isRunning] the flag. *)
Theorem what_each_method_surfaces (op : operation) (s : State World) :
  match op with
  | Start =>
      returned (perform vrep getPath op s) =
      Some (Bool (negb (simRosStartSimulation.result
                          (answer (startClient_ (self s)) (startSimulation vrep)
                             simRosStartSimulation.new s) =? -1)))
  | Stop =>
      returned (perform vrep getPath op s) =
      Some (Bool (negb (simRosStopSimulation.result
                          (answer (stopClient_ (self s)) (stopSimulation vrep)
                             simRosStopSimulation.new s) =? -1)))
  | GetHandle name =>
      returned (perform vrep getPath op s) =
      Some (Long (simRosGetObjectHandle.handle
                    (answer (handleClient_ (self s)) (getObjectHandle vrep)
                       (handleSrv name) s)))
  | MoveObjectName name x y z =>
      exists handle s1,
        getHandle vrep name s = Ok handle s1 /\
        returned (perform vrep getPath op s) =
        Some (Bool (negb (simRosSetObjectPosition.result
                            (answer (moveClient_ (self s1)) (setObjectPosition vrep)
                               (moveSrv handle x y z) s1) =? -1)))
  | MoveObject handle x y z =>
      returned (perform vrep getPath op s) =
      Some (Bool (negb (simRosSetObjectPosition.result
                          (answer (moveClient_ (self s)) (setObjectPosition vrep)
                             (moveSrv handle x y z) s) =? -1)))
  | CopyObject handle =>
      returned (perform vrep getPath op s) =
      option_map Long
        (nth_error (simRosCopyPasteObjects.newObjectHandles
                      (answer (copyClient_ (self s)) (copyPasteObjects vrep)
                         (copySrv handle) s)) 0)
  | GetPose handle =>
      returned (perform vrep getPath op s) =
      Some (PoseStamped (simRosGetObjectPose.pose
                           (answer (poseClient_ (self s)) (getObjectPose vrep)
                              (poseSrv handle) s)))
  | IsRunning =>
      returned (perform vrep getPath op s) =
      Some (Bool (running_ (deliver (pending (ros s)) (self s))))
  | LoadScene fullPath =>
      returned (perform vrep getPath op s) =
      Some (Bool (simRosLoadScene.result
                    (answer (loadClient_ (self s)) (loadSceneService vrep)
                       (loadSrv fullPath) s) =? 1))
  | LoadScenePackage problemName relativePath packageName =>
      returned (perform vrep getPath op s) =
      Some (Bool (simRosLoadScene.result
                    (answer (loadClient_ (self s)) (loadSceneService vrep)
                       (loadSrv (getPath packageName ++ "/problems/" ++ problemName
                                 ++ "/" ++ relativePath)%string) s) =? 1))
  end.
Proof.
  destruct op; unfold perform, bind.
  - now rewrite start_exchange.
  - now rewrite stop_exchange.
  - now rewrite getHandle_exchange.
  - unfold moveObject_name, bind. rewrite getHandle_exchange.
    eexists. eexists. split; [reflexivity|]. now rewrite moveObject_exchange.
  - now rewrite moveObject_exchange.
  - rewrite copyObject_exchange.
    now destruct (simRosCopyPasteObjects.newObjectHandles _).
  - now rewrite getPose_exchange.
  - now rewrite isRunning_exchange.
  - now rewrite loadScene_exchange.
  - unfold loadScene_package. rewrite loadScene_exchange.
    now rewrite !append_assoc.
Qed.

(** ** The run-state flag *)

(** C3.  Once notifications have been delivered, the last of them being
    [m], the flag is [true] exactly when [m]'s simulator state is 1, whatever
    came before; and [isRunning], with nothing further queued, returns that
    flag and changes nothing. *)
Theorem flag_reflects_last_status (h : VrepHelper) (msgs : list VrepInfo)
    (m : VrepInfo) (outbox : list Wire) (w : World) :
  running_ (deliver (msgs ++ [m]) h) = (std_msgs.data (simulatorState m) =? 1) /\
  (running_ (deliver (msgs ++ [m]) h) = true <->
   std_msgs.data (simulatorState m) = 1) /\
  isRunning {| self := deliver (msgs ++ [m]) h;
               ros := {| pending := []; sent := outbox; world := w |} |} =
  Ok (std_msgs.data (simulatorState m) =? 1)
     {| self := deliver (msgs ++ [m]) h;
        ros := {| pending := []; sent := outbox; world := w |} |}.
Proof.
  pose proof (deliver_last h msgs m) as Hlast.
  split; [exact Hlast|]. split.
  - rewrite Hlast. apply Z.eqb_eq.
  - rewrite isRunning_exchange. simpl. now rewrite Hlast.
Qed.

(** C4.  [isRunning] runs the callback on every queued notification, oldest
    first, before it reads the flag: the value returned is the flag after
    those deliveries, the queue is empty afterwards, and nothing else of the
    state moves.  With a notification [m] at the back of the queue the
    value is [m]'s status, whatever the flag was when [isRunning] was
    called. *)
Theorem isRunning_drains_then_reads (s : State World) :
  isRunning s =
  Ok (running_ (deliver (pending (ros s)) (self s)))
     {| self := deliver (pending (ros s)) (self s);
        ros := {| pending := []; sent := sent (ros s); world := world (ros s) |} |} /\
  (forall (older : list VrepInfo) (m : VrepInfo),
     returned (isRunning
                 {| self := self s;
                    ros := {| pending := older ++ [m];
                              sent := sent (ros s);
                              world := world (ros s) |} |}) =
     Some (std_msgs.data (simulatorState m) =? 1)).
Proof.
  split.
  - apply isRunning_exchange.
  - intros older m. rewrite isRunning_exchange. simpl. now rewrite deliver_last.
Qed.

(** ** What the methods send *)

Lemma after_outgoing {Req Resp : Type} (client : ServiceClient)
    (serve : Service World Req Resp) (wire : string -> Req -> Wire)
    (srv : Srv Req Resp) (s : State World) :
  sent (ros (after client serve wire srv s)) =
  sent (ros s) ++ outgoing client wire (request srv).
Proof. apply after_sent. Qed.

Lemma outgoing_length {Req : Type} (client : ServiceClient)
    (wire : string -> Req -> Wire) (req : Req) :
  (List.length (outgoing client wire req) <= 1)%nat.
Proof. destruct client; simpl; lia. Qed.

Lemma outgoing_absolute {Req : Type} (client : ServiceClient)
    (wire : string -> Req -> Wire) (req : Req) :
  (forall name, absolute (wire name req)) ->
  Forall absolute (outgoing client wire req).
Proof. intros H. destruct client; simpl; auto. Qed.

(** A method that is one [call]: the request it sends is the only one, and
    if it names a frame, the frame is -1. *)
Ltac one_request :=
  simpl; eexists; split; [apply after_outgoing|];
  split; [|left; apply outgoing_length];
  apply outgoing_absolute; intros n f Hf;
  first [discriminate | simpl in Hf; now injection Hf as <-].

(** Every method but [copyObject] on an empty answer returns; what it sent
    is at most one request, two for the by-name [moveObject], and no request
    names a frame other than the absolute one. *)
Lemma perform_sends (op : operation) (s : State World) :
  match final (perform vrep getPath op s) with
  | Some s' =>
      exists l,
        sent (ros s') = sent (ros s) ++ l /\
        Forall absolute l /\
        ((List.length l <= 1)%nat \/ exists name x y z, op = MoveObjectName name x y z)
  | None => exists handle, op = CopyObject handle
  end.
Proof.
  destruct op; unfold perform, bind.
  - rewrite start_exchange. one_request.
  - rewrite stop_exchange. one_request.
  - rewrite getHandle_exchange. one_request.
  - unfold moveObject_name, bind. rewrite getHandle_exchange, moveObject_exchange.
    simpl. eexists. split.
    + rewrite !after_outgoing, after_self, <- app_assoc. reflexivity.
    + split; [|right; eauto].
      apply Forall_app. split; apply outgoing_absolute; intros n f Hf.
      * discriminate.
      * simpl in Hf. now injection Hf as <-.
  - rewrite moveObject_exchange. one_request.
  - rewrite copyObject_exchange.
    destruct (simRosCopyPasteObjects.newObjectHandles _) as [|first rest]; simpl.
    + eauto.
    + one_request.
  - rewrite getPose_exchange. one_request.
  - rewrite isRunning_exchange. simpl. exists []. rewrite app_nil_r.
    split; [reflexivity|]. split; [constructor|left; simpl; lia].
  - rewrite loadScene_exchange. one_request.
  - unfold loadScene_package. rewrite loadScene_exchange. simpl.
    eexists. split; [apply after_outgoing|].
    split; [|left; apply outgoing_length].
    apply outgoing_absolute. intros n f Hf. discriminate.
Qed.

(** ** Composition *)

(** C5.  The by-name [moveObject] is [getHandle] followed by the by-handle
    [moveObject] on the handle it returned, from the state it left: same
    result, same final state, the two requests in that order.  No other
    method composes remote calls: each of them sends at most one request. *)
Theorem moveObject_name_resolves_then_moves (name : string) (x y z : float)
    (s : State World) :
  (exists handle s1 moved s2,
     getHandle vrep name s = Ok handle s1 /\
     moveObject vrep handle x y z s1 = Ok moved s2 /\
     moveObject_name vrep name x y z s = Ok moved s2 /\
     sent (ros s2) =
     sent (ros s)
     ++ outgoing (handleClient_ (self s)) GetObjectHandleCall (request (handleSrv name))
     ++ outgoing (moveClient_ (self s)) SetObjectPositionCall
          (request (moveSrv handle x y z))) /\
  (forall op : operation,
     match final (perform vrep getPath op s) with
     | Some s' =>
         (exists l, sent (ros s') = sent (ros s) ++ l /\ (List.length l <= 1)%nat) \/
         (exists name' x' y' z', op = MoveObjectName name' x' y' z')
     | None => exists handle, op = CopyObject handle
     end).
Proof.
  split.
  - do 4 eexists. rewrite getHandle_exchange. split; [reflexivity|].
    rewrite moveObject_exchange. split; [reflexivity|].
    split.
    + unfold moveObject_name, bind. rewrite getHandle_exchange.
      now rewrite moveObject_exchange.
    + now rewrite !after_outgoing, after_self, <- app_assoc.
  - intros op. pose proof (perform_sends op s) as H.
    destruct (final (perform vrep getPath op s)) as [s'|]; [|exact H].
    destruct H as (l & Hsent & _ & [Hlen|Hname]); [left; eauto|right; exact Hname].
Qed.

(** ** Pass-through *)

(** C6, as amended.  [getHandle] returns the handle field of the response
    and [getPose] its pose field, as they are; [copyObject] returns the
    element at index 0 of the response's [newObjectHandles].  The other
    methods do not hand a field back: [start], [stop] and both [moveObject]
    overloads return the comparison [result != -1], both [loadScene]
    overloads the comparison [result == 1], and [isRunning] the adapter's own
    flag, which is no part of any response. *)
Theorem methods_return_response_fields (name : string) (handle : Z)
    (x y z : float) (fullPath problemName relativePath packageName : string)
    (s : State World) :
  returned (getHandle vrep name s) =
  Some (simRosGetObjectHandle.handle
          (answer (handleClient_ (self s)) (getObjectHandle vrep) (handleSrv name) s)) /\
  returned (getPose vrep handle s) =
  Some (simRosGetObjectPose.pose
          (answer (poseClient_ (self s)) (getObjectPose vrep) (poseSrv handle) s)) /\
  returned (copyObject vrep handle s) =
  nth_error (simRosCopyPasteObjects.newObjectHandles
               (answer (copyClient_ (self s)) (copyPasteObjects vrep)
                  (copySrv handle) s)) 0 /\
  returned (start vrep s) =
  Some (negb (simRosStartSimulation.result
                (answer (startClient_ (self s)) (startSimulation vrep)
                   simRosStartSimulation.new s) =? -1)) /\
  returned (stop vrep s) =
  Some (negb (simRosStopSimulation.result
                (answer (stopClient_ (self s)) (stopSimulation vrep)
                   simRosStopSimulation.new s) =? -1)) /\
  returned (moveObject vrep handle x y z s) =
  Some (negb (simRosSetObjectPosition.result
                (answer (moveClient_ (self s)) (setObjectPosition vrep)
                   (moveSrv handle x y z) s) =? -1)) /\
  (exists found s1,
     getHandle vrep name s = Ok found s1 /\
     returned (moveObject_name vrep name x y z s) =
     Some (negb (simRosSetObjectPosition.result
                   (answer (moveClient_ (self s1)) (setObjectPosition vrep)
                      (moveSrv found x y z) s1) =? -1))) /\
  returned (loadScene vrep fullPath s) =
  Some (simRosLoadScene.result
          (answer (loadClient_ (self s)) (loadSceneService vrep) (loadSrv fullPath) s)
        =? 1) /\
  returned (loadScene_package vrep getPath problemName relativePath packageName s) =
  Some (simRosLoadScene.result
          (answer (loadClient_ (self s)) (loadSceneService vrep)
             (loadSrv (getPath packageName ++ "/problems/" ++ problemName
                       ++ "/" ++ relativePath)%string) s)
        =? 1) /\
  returned (@isRunning World s) =
  Some (running_ (deliver (pending (ros s)) (self s))).
Proof.
  rewrite getHandle_exchange, getPose_exchange, copyObject_exchange,
    start_exchange, stop_exchange, moveObject_exchange, loadScene_exchange,
    isRunning_exchange.
  unfold loadScene_package, moveObject_name, bind.
  rewrite getHandle_exchange, moveObject_exchange, loadScene_exchange,
    !append_assoc.
  repeat split.
  - now destruct (simRosCopyPasteObjects.newObjectHandles _).
  - do 2 eexists. split; reflexivity.
Qed.

(** ** Scenes *)

(** C7.  Loading relative to a package is loading the absolute path made of
    the package path, [/problems/], the problem name, [/] and the relative
    path: same result, same final state. *)
Theorem loadScene_package_is_loadScene (problemName relativePath packageName : string)
    (s : State World) :
  loadScene_package vrep getPath problemName relativePath packageName s =
  loadScene vrep
    (getPath packageName ++ "/problems/" ++ problemName ++ "/" ++ relativePath)%string s.
Proof. unfold loadScene_package. now rewrite !append_assoc. Qed.

(** ** The unchecked index *)

(** C8.  [copyObject] reads index 0 of [newObjectHandles] whatever the
    response holds: it returns the first element when there is one, and has
    no defined result exactly when the list is empty. *)
Theorem copyObject_defined_iff_nonempty (handle : Z) (s : State World) :
  returned (copyObject vrep handle s) =
  hd_error (simRosCopyPasteObjects.newObjectHandles
              (answer (copyClient_ (self s)) (copyPasteObjects vrep)
                 (copySrv handle) s)) /\
  (copyObject vrep handle s = Undefined <->
   simRosCopyPasteObjects.newObjectHandles
     (answer (copyClient_ (self s)) (copyPasteObjects vrep) (copySrv handle) s) = []).
Proof.
  rewrite copyObject_exchange.
  destruct (simRosCopyPasteObjects.newObjectHandles _) as [|first rest]; simpl.
  - split; [reflexivity|]. split; reflexivity.
  - split; [reflexivity|]. split; discriminate.
Qed.

(** ** Reference frames *)

(** C9.  The by-handle [moveObject] and [getPose] always return, and the
    request each of them sends carries [relativeToObjectHandle = -1]; no
    method of the adapter sends a request that names another frame. *)
Theorem requests_use_world_frame (handle : Z) (x y z : float) (s : State World) :
  (exists moved s',
     moveObject vrep handle x y z s = Ok moved s' /\
     sent (ros s') =
     sent (ros s) ++ outgoing (moveClient_ (self s)) SetObjectPositionCall
                       (request (moveSrv handle x y z)) /\
     simRosSetObjectPosition.relativeToObjectHandle (request (moveSrv handle x y z)) = -1 /\
     Forall (fun w => frame_of w = Some (-1))
       (outgoing (moveClient_ (self s)) SetObjectPositionCall
          (request (moveSrv handle x y z)))) /\
  (exists pose s',
     getPose vrep handle s = Ok pose s' /\
     sent (ros s') =
     sent (ros s) ++ outgoing (poseClient_ (self s)) GetObjectPoseCall
                       (request (poseSrv handle)) /\
     simRosGetObjectPose.relativeToObjectHandle (request (poseSrv handle)) = -1 /\
     Forall (fun w => frame_of w = Some (-1))
       (outgoing (poseClient_ (self s)) GetObjectPoseCall (request (poseSrv handle)))) /\
  (forall op : operation,
     match final (perform vrep getPath op s) with
     | Some s' => exists l, sent (ros s') = sent (ros s) ++ l /\ Forall absolute l
     | None => exists handle', op = CopyObject handle'
     end).
Proof.
  split; [|split]; [do 2 eexists|do 2 eexists|].
  - rewrite moveObject_exchange. split; [reflexivity|].
    split; [apply after_outgoing|]. split; [reflexivity|].
    destruct (moveClient_ (self s)); simpl; repeat constructor.
  - rewrite getPose_exchange. split; [reflexivity|].
    split; [apply after_outgoing|]. split; [reflexivity|].
    destruct (poseClient_ (self s)); simpl; repeat constructor.
  - intros op. pose proof (perform_sends op s) as H.
    destruct (final (perform vrep getPath op s)) as [s'|]; [|exact H].
    destruct H as (l & Hsent & Habs & _). eauto.
Qed.

(** ** Who writes the flag *)

Lemma perform_self (op : operation) (s s' : State World) (v : value) :
  op <> IsRunning ->
  perform vrep getPath op s = Ok v s' ->
  self s' = self s.
Proof.
  intros Hop. destruct op; unfold perform, bind; try congruence.
  - rewrite start_exchange. intros [= _ <-]. apply after_self.
  - rewrite stop_exchange. intros [= _ <-]. apply after_self.
  - rewrite getHandle_exchange. intros [= _ <-]. apply after_self.
  - unfold moveObject_name, bind. rewrite getHandle_exchange, moveObject_exchange.
    intros [= _ <-]. now rewrite !after_self.
  - rewrite moveObject_exchange. intros [= _ <-]. apply after_self.
  - rewrite copyObject_exchange.
    destruct (simRosCopyPasteObjects.newObjectHandles _); [discriminate|].
    intros [= _ <-]. apply after_self.
  - rewrite getPose_exchange. intros [= _ <-]. apply after_self.
  - rewrite loadScene_exchange. intros [= _ <-]. apply after_self.
  - unfold loadScene_package. rewrite loadScene_exchange.
    intros [= _ <-]. apply after_self.
Qed.

(** C10.  Both constructors leave [running_] false, so that [isRunning]
    called right after either returns false; and every method other than
    [isRunning], which runs the callback, returns with [running_] as it
    found it, whatever the simulator answered or published meanwhile. *)
Theorem only_infoCallback_writes_running_ :
  (forall w : World,
     exists s, VrepHelper_new w = Ok tt s /\
               running_ (self s) = false /\
               returned (isRunning s) = Some false) /\
  (forall (node : NodeHandle) (w : World),
     exists s, VrepHelper_new_node node w = Ok tt s /\
               running_ (self s) = false /\
               returned (isRunning s) = Some false) /\
  (forall (op : operation) (s s' : State World) (v : value),
     op <> IsRunning ->
     perform vrep getPath op s = Ok v s' ->
     running_ (self s') = running_ (self s)).
Proof.
  split; [|split].
  - intros w. eexists. split; [reflexivity|]. split; reflexivity.
  - intros node w. eexists. split; [reflexivity|]. split; reflexivity.
  - intros op s s' v Hop Hrun. now rewrite (perform_self op s s' v Hop Hrun).
Qed.

(** ** Notifications on their way *)

Lemma receive_pending (m : VrepInfo) (s : State World) :
  infoSub_ (self s) <> None ->
  exists older, pending (ros (receive m s)) = older ++ [m].
Proof.
  unfold receive. destruct (infoSub_ (self s)) as [sub|]; [|congruence].
  intros _. simpl. apply enqueue_keeps_newest.
Qed.

Lemma arrive_app (front back : list VrepInfo) (s : State World) :
  arrive (front ++ back) s = arrive back (arrive front s).
Proof. unfold arrive. apply fold_left_app. Qed.

(** Whatever the queue size and whatever was dropped on the way, a
    subscribed adapter that calls [isRunning] after notifications came in
    gets the status of the newest one. *)
Theorem isRunning_after_arrivals (msgs : list VrepInfo) (m : VrepInfo)
    (s : State World) :
  infoSub_ (self s) <> None ->
  returned (isRunning (arrive (msgs ++ [m]) s)) =
  Some (std_msgs.data (simulatorState m) =? 1).
Proof.
  intros Hsub. rewrite arrive_app, isRunning_exchange. unfold returned.
  change (arrive [m] (arrive msgs s)) with (receive m (arrive msgs s)).
  destruct (receive_pending m (arrive msgs s)) as (older & Hq).
  - now rewrite arrive_self.
  - now rewrite Hq, deliver_last.
Qed.

(** ** Handles on their way into a request *)

Lemma int_of_long_small (v : Z) : in_int_range v -> int_of_long v = v.
Proof.
  unfold in_int_range, int_of_long, wrap. intros H.
  change (2 ^ (32 - 1)) with 2147483648.
  change (2 ^ 32) with 4294967296.
  change (2 ^ 31) with 2147483648 in H.
  rewrite Z.mod_small; lia.
Qed.

Lemma int_of_long_range (v : Z) : in_int_range (int_of_long v).
Proof.
  unfold in_int_range, int_of_long, wrap.
  change (2 ^ (32 - 1)) with 2147483648.
  change (2 ^ 32) with 4294967296.
  change (2 ^ 31) with 2147483648.
  pose proof (Z.mod_pos_bound (v + 2147483648) 4294967296 eq_refl) as H.
  lia.
Qed.

Lemma int_of_long_period (v k : Z) : int_of_long (v + k * 2 ^ 32) = int_of_long v.
Proof.
  unfold int_of_long, wrap.
  replace (v + k * 2 ^ 32 + 2 ^ (32 - 1)) with (v + 2 ^ (32 - 1) + k * 2 ^ 32) by lia.
  now rewrite Z_mod_plus_full.
Qed.

(** A handle that fits an [int] reaches the simulator as it is: the
    by-handle [moveObject], [getPose] and [copyObject] put exactly [handle]
    into the request they send, [copyObject] as the only element of
    [objectHandles]. *)
Theorem handle_in_range_sent_as_is (handle : Z) (x y z : float) (s : State World) :
  in_int_range handle ->
  (exists moved s',
     moveObject vrep handle x y z s = Ok moved s' /\
     sent (ros s') =
     sent (ros s)
     ++ outgoing (moveClient_ (self s)) SetObjectPositionCall
          {| simRosSetObjectPosition.handle := handle;
             simRosSetObjectPosition.relativeToObjectHandle := -1;
             simRosSetObjectPosition.position :=
               {| geometry_msgs.x := x; geometry_msgs.y := y; geometry_msgs.z := z |} |}) /\
  (exists pose s',
     getPose vrep handle s = Ok pose s' /\
     sent (ros s') =
     sent (ros s)
     ++ outgoing (poseClient_ (self s)) GetObjectPoseCall
          {| simRosGetObjectPose.handle := handle;
             simRosGetObjectPose.relativeToObjectHandle := -1 |}) /\
  match final (copyObject vrep handle s) with
  | Some s' =>
      sent (ros s') =
      sent (ros s)
      ++ outgoing (copyClient_ (self s)) CopyPasteObjectsCall
           {| simRosCopyPasteObjects.objectHandles := [handle] |}
  | None =>
      simRosCopyPasteObjects.newObjectHandles
        (answer (copyClient_ (self s)) (copyPasteObjects vrep) (copySrv handle) s) = []
  end.
Proof.
  intros Hrange. pose proof (int_of_long_small handle Hrange) as Hid.
  split; [|split].
  - do 2 eexists. rewrite moveObject_exchange. split; [reflexivity|].
    rewrite after_outgoing. unfold moveSrv. simpl. now rewrite Hid.
  - do 2 eexists. rewrite getPose_exchange. split; [reflexivity|].
    rewrite after_outgoing. unfold poseSrv. simpl. now rewrite Hid.
  - rewrite copyObject_exchange.
    destruct (simRosCopyPasteObjects.newObjectHandles _) as [|first rest]; simpl.
    + reflexivity.
    + rewrite after_outgoing. unfold copySrv. simpl. now rewrite Hid.
Qed.

(** A [long] handle outside the [int] range is cut to its low 32 bits
    before it is sent: two handles that differ by a multiple of [2^32] are
    the same call, with the same result and the same final state. *)
Theorem handles_agree_modulo_2_32 (handle k : Z) (x y z : float) (s : State World) :
  moveObject vrep (handle + k * 2 ^ 32) x y z s = moveObject vrep handle x y z s /\
  getPose vrep (handle + k * 2 ^ 32) s = getPose vrep handle s /\
  copyObject vrep (handle + k * 2 ^ 32) s = copyObject vrep handle s.
Proof.
  unfold moveObject, getPose, copyObject.
  now rewrite int_of_long_period.
Qed.

(** ** Calls that do not go through *)

Lemma answer_unanswered {Req Resp : Type} (client : ServiceClient)
    (serve : Service World Req Resp) (srv : Srv Req Resp) (s : State World) :
  unanswered client serve srv s -> answer client serve srv s = response srv.
Proof.
  unfold unanswered, answer. destruct client as [name|]; [|reflexivity].
  now intros ->.
Qed.

(** The boolean [call] returns is never looked at, and a response is
    constructed with result 0.  So when the call does not go through,
    [start], [stop] and [moveObject] report success, and [loadScene]
    reports failure. *)
Theorem unanswered_call_and_the_boolean (handle : Z) (x y z : float)
    (fullPath : string) (s : State World) :
  (unanswered (startClient_ (self s)) (startSimulation vrep)
     simRosStartSimulation.new s ->
   returned (start vrep s) = Some true) /\
  (unanswered (stopClient_ (self s)) (stopSimulation vrep)
     simRosStopSimulation.new s ->
   returned (stop vrep s) = Some true) /\
  (unanswered (moveClient_ (self s)) (setObjectPosition vrep)
     (moveSrv handle x y z) s ->
   returned (moveObject vrep handle x y z s) = Some true) /\
  (unanswered (loadClient_ (self s)) (loadSceneService vrep) (loadSrv fullPath) s ->
   returned (loadScene vrep fullPath s) = Some false).
Proof.
  repeat split; intros H.
  - rewrite start_exchange. simpl. now rewrite (answer_unanswered _ _ _ _ H).
  - rewrite stop_exchange. simpl. now rewrite (answer_unanswered _ _ _ _ H).
  - rewrite moveObject_exchange. simpl. now rewrite (answer_unanswered _ _ _ _ H).
  - rewrite loadScene_exchange. simpl. now rewrite (answer_unanswered _ _ _ _ H).
Qed.

(** When the call does not go through, [getHandle] returns 0, the handle
    the response was constructed with (not the -1 its comment announces for
    a failure), [getPose] returns the pose as constructed, and [copyObject]
    indexes an empty vector. *)
Theorem unanswered_call_and_the_value (name : string) (handle : Z)
    (s : State World) :
  (unanswered (handleClient_ (self s)) (getObjectHandle vrep) (handleSrv name) s ->
   returned (getHandle vrep name s) = Some 0) /\
  (unanswered (poseClient_ (self s)) (getObjectPose vrep) (poseSrv handle) s ->
   returned (getPose vrep handle s) = Some blank_pose) /\
  (unanswered (copyClient_ (self s)) (copyPasteObjects vrep) (copySrv handle) s ->
   copyObject vrep handle s = Undefined).
Proof.
  repeat split; intros H.
  - rewrite getHandle_exchange. simpl. now rewrite (answer_unanswered _ _ _ _ H).
  - rewrite getPose_exchange. simpl. now rewrite (answer_unanswered _ _ _ _ H).
  - rewrite copyObject_exchange. now rewrite (answer_unanswered _ _ _ _ H).
Qed.

(** ** The wiring *)

Lemma deliver_wiring (msgs : list VrepInfo) (h : VrepHelper) :
  wiring (deliver msgs h) = wiring h.
Proof.
  revert h. induction msgs as [|m msgs IH]; intros h.
  - reflexivity.
  - change (deliver (m :: msgs) h) with (deliver msgs (infoCallback m h)).
    now rewrite IH.
Qed.

Lemma wiring_connected (h h' : VrepHelper) :
  wiring h = wiring h' -> connected h = connected h'.
Proof.
  unfold wiring, connected. intros [= _ H1 H2 H3 H4 H5 H6 H7 _].
  now rewrite H1, H2, H3, H4, H5, H6, H7.
Qed.

Lemma operation_eq_IsRunning (op : operation) : op = IsRunning \/ op <> IsRunning.
Proof. destruct op; (now left) || (right; discriminate). Qed.

Lemma perform_wiring (op : operation) (s s' : State World) (v : value) :
  perform vrep getPath op s = Ok v s' -> wiring (self s') = wiring (self s).
Proof.
  intros H. destruct (operation_eq_IsRunning op) as [->|Hop].
  - revert H. unfold perform, bind. rewrite isRunning_exchange.
    intros [= _ <-]. apply deliver_wiring.
  - now rewrite (perform_self op s s' v Hop H).
Qed.

(** No method rewires the adapter: whatever is called, and whatever
    notifications come in afterwards, the node, the seven clients and the
    subscription stay as they were; the methods of a connected adapter leave
    it connected, and those of a default-constructed one leave it
    unconnected. *)
Theorem methods_never_rewire (op : operation) (s s' : State World) (v : value)
    (msgs : list VrepInfo) :
  perform vrep getPath op s = Ok v s' ->
  wiring (self s') = wiring (self s) /\
  wiring (self (arrive msgs s')) = wiring (self s) /\
  connected (self s') = connected (self s).
Proof.
  intros Hrun. pose proof (perform_wiring op s s' v Hrun) as Hw.
  split; [exact Hw|]. split.
  - now rewrite arrive_self.
  - now apply wiring_connected.
Qed.

(** After [setRosNode], and for as long as the wiring is the one it left,
    every method returns (but [copyObject] on an empty answer), sends as
    many requests as its body has calls, and sends each of them to the
    service that goes with its type. *)
Theorem requests_go_to_their_service (node : NodeHandle) (s0 s1 s : State World)
    (op : operation) :
  setRosNode node s0 = Ok tt s1 ->
  wiring (self s) = wiring (self s1) ->
  match final (perform vrep getPath op s) with
  | Some s' =>
      exists l,
        sent (ros s') = sent (ros s) ++ l /\
        forallb addressed l = true /\
        List.length l = calls op
  | None => exists handle, op = CopyObject handle
  end.
Proof.
  unfold setRosNode. intros [= <-]. unfold wiring. simpl.
  intros [= _ Hstart Hstop Hcopy Hhandle Hmove Hpose Hload _].
  destruct op; unfold perform, bind.
  - rewrite start_exchange. simpl. eexists. split; [apply after_outgoing|].
    rewrite Hstart. split; reflexivity.
  - rewrite stop_exchange. simpl. eexists. split; [apply after_outgoing|].
    rewrite Hstop. split; reflexivity.
  - rewrite getHandle_exchange. simpl. eexists. split; [apply after_outgoing|].
    rewrite Hhandle. split; reflexivity.
  - unfold moveObject_name, bind. rewrite getHandle_exchange, moveObject_exchange.
    simpl. eexists. split.
    + rewrite !after_outgoing, after_self, <- app_assoc. reflexivity.
    + rewrite Hhandle, Hmove. split; reflexivity.
  - rewrite moveObject_exchange. simpl. eexists. split; [apply after_outgoing|].
    rewrite Hmove. split; reflexivity.
  - rewrite copyObject_exchange.
    destruct (simRosCopyPasteObjects.newObjectHandles _) as [|first rest]; simpl.
    + eauto.
    + eexists. split; [apply after_outgoing|]. rewrite Hcopy. split; reflexivity.
  - rewrite getPose_exchange. simpl. eexists. split; [apply after_outgoing|].
    rewrite Hpose. split; reflexivity.
  - rewrite isRunning_exchange. simpl. exists []. now rewrite app_nil_r.
  - rewrite loadScene_exchange. simpl. eexists. split; [apply after_outgoing|].
    rewrite Hload. split; reflexivity.
  - unfold loadScene_package. rewrite loadScene_exchange. simpl.
    eexists. split; [apply after_outgoing|]. rewrite Hload. split; reflexivity.
Qed.

(** The by-name [moveObject] does not look at the handle it resolved: the
    set-position request carries whatever handle the lookup answered, -1
    for an unknown object included. *)
Theorem moveObject_name_sends_looked_up_handle (name : string) (x y z : float)
    (s : State World) (lookup mover : string)
    (r : simRosGetObjectHandle.Response) :
  handleClient_ (self s) = Some lookup ->
  moveClient_ (self s) = Some mover ->
  reply (getObjectHandle vrep lookup {| simRosGetObjectHandle.objectName := name |}
           (world (ros s))) = Some r ->
  in_int_range (simRosGetObjectHandle.handle r) ->
  exists moved s',
    moveObject_name vrep name x y z s = Ok moved s' /\
    sent (ros s') =
    sent (ros s)
    ++ [GetObjectHandleCall lookup {| simRosGetObjectHandle.objectName := name |};
        SetObjectPositionCall mover
          {| simRosSetObjectPosition.handle := simRosGetObjectHandle.handle r;
             simRosSetObjectPosition.relativeToObjectHandle := -1;
             simRosSetObjectPosition.position :=
               {| geometry_msgs.x := x; geometry_msgs.y := y; geometry_msgs.z := z |} |}].
Proof.
  intros Hlookup Hmover Hreply Hrange.
  unfold moveObject_name, bind. rewrite getHandle_exchange, moveObject_exchange.
  do 2 eexists. split; [reflexivity|].
  rewrite !after_outgoing, after_self, <- app_assoc, Hlookup, Hmover.
  unfold answer. simpl. rewrite Hreply.
  now rewrite (int_of_long_small _ Hrange).
Qed.

(** ** The queue *)

Lemma enqueue_length (size : nat) (q : list VrepInfo) (m : VrepInfo) :
  (0 < size)%nat -> (List.length (enqueue size q m) <= size)%nat.
Proof.
  unfold enqueue. destruct size as [|n]; [lia|]. intros _.
  rewrite length_skipn. lia.
Qed.

Lemma receive_queue_within (m : VrepInfo) (s : State World) :
  queue_within s -> queue_within (receive m s).
Proof.
  unfold queue_within, receive.
  destruct (infoSub_ (self s)) as [sub|] eqn:Hsub; simpl.
  - rewrite Hsub. intros _ Hpos. now apply enqueue_length.
  - now rewrite Hsub.
Qed.

Lemma arrive_queue_within (msgs : list VrepInfo) (s : State World) :
  queue_within s -> queue_within (arrive msgs s).
Proof.
  revert s. induction msgs as [|m msgs IH]; intros s H.
  - exact H.
  - change (arrive (m :: msgs) s) with (arrive msgs (receive m s)).
    apply IH. now apply receive_queue_within.
Qed.

Lemma after_queue_within {Req Resp : Type} (client : ServiceClient)
    (serve : Service World Req Resp) (wire : string -> Req -> Wire)
    (srv : Srv Req Resp) (s : State World) :
  queue_within s -> queue_within (after client serve wire srv s).
Proof.
  intros H. unfold after. destruct client as [name|]; [|exact H].
  apply arrive_queue_within. exact H.
Qed.

Lemma perform_queue_within (op : operation) (s s' : State World) (v : value) :
  queue_within s -> perform vrep getPath op s = Ok v s' -> queue_within s'.
Proof.
  intros H. destruct op; unfold perform, bind.
  - rewrite start_exchange. intros [= _ <-]. now apply after_queue_within.
  - rewrite stop_exchange. intros [= _ <-]. now apply after_queue_within.
  - rewrite getHandle_exchange. intros [= _ <-]. now apply after_queue_within.
  - unfold moveObject_name, bind. rewrite getHandle_exchange, moveObject_exchange.
    intros [= _ <-]. now do 2 apply after_queue_within.
  - rewrite moveObject_exchange. intros [= _ <-]. now apply after_queue_within.
  - rewrite copyObject_exchange.
    destruct (simRosCopyPasteObjects.newObjectHandles _); [discriminate|].
    intros [= _ <-]. now apply after_queue_within.
  - rewrite getPose_exchange. intros [= _ <-]. now apply after_queue_within.
  - rewrite isRunning_exchange. intros [= _ <-].
    unfold queue_within. simpl.
    pose proof (deliver_wiring (pending (ros s)) (self s)) as Hw.
    unfold wiring in Hw. injection Hw as _ _ _ _ _ _ _ _ ->.
    destruct (infoSub_ (self s)); [simpl; lia|reflexivity].
  - rewrite loadScene_exchange. intros [= _ <-]. now apply after_queue_within.
  - unfold loadScene_package. rewrite loadScene_exchange.
    intros [= _ <-]. now apply after_queue_within.
Qed.

(** The queue never outgrows the subscription: no method and no arrival
    takes a state where it is within its size to one where it is not, so on
    a subscription of size 1, the one [setRosNode] makes, at most one
    notification waits for [isRunning], and without a subscription none. *)
Theorem queue_stays_within (op : operation) (s s' : State World) (v : value)
    (msgs : list VrepInfo) :
  queue_within s ->
  perform vrep getPath op s = Ok v s' ->
  queue_within s' /\
  queue_within (arrive msgs s') /\
  match infoSub_ (self s) with
  | Some sub =>
      queue_size sub = 1%nat ->
      (List.length (pending (ros (arrive msgs s'))) <= 1)%nat
  | None => pending (ros (arrive msgs s')) = []
  end.
Proof.
  intros Hq Hrun.
  pose proof (perform_queue_within op s s' v Hq Hrun) as Hq'.
  pose proof (arrive_queue_within msgs s' Hq') as Hq''.
  split; [exact Hq'|]. split; [exact Hq''|].
  pose proof (perform_wiring op s s' v Hrun) as Hw.
  unfold wiring in Hw. injection Hw as _ _ _ _ _ _ _ _ Hsub.
  unfold queue_within in Hq''. rewrite arrive_self, Hsub in Hq''.
  destruct (infoSub_ (self s)) as [sub|]; [|exact Hq''].
  intros Hone. rewrite Hone in Hq''. apply Hq''. lia.
Qed.

(** ** Polling *)

Lemma arrive_newest (msgs : list VrepInfo) (m : VrepInfo) (s : State World) :
  infoSub_ (self s) <> None ->
  exists older, pending (ros (arrive (msgs ++ [m]) s)) = older ++ [m].
Proof.
  intros Hsub. rewrite arrive_app.
  change (arrive [m] (arrive msgs s)) with (receive m (arrive msgs s)).
  apply receive_pending. now rewrite arrive_self.
Qed.

(** Asking twice is asking once: a second [isRunning] right after the
    first returns the same value and leaves the same state. *)
Theorem isRunning_twice (s : State World) :
  bind (@isRunning World) (fun _ => @isRunning World) s = isRunning s.
Proof. unfold bind. now rewrite !isRunning_exchange. Qed.

(** [start] followed by [isRunning], on a subscribed adapter with a valid
    start client.  What [isRunning] then returns is decided by the
    notifications alone: the status of the newest one published during the
    call if there is one, and otherwise the flag after what was already
    queued.  The result code of the start call does not enter. *)
Theorem start_then_isRunning (name : string) (s : State World) :
  startClient_ (self s) = Some name ->
  infoSub_ (self s) <> None ->
  (forall (msgs : list VrepInfo) (m : VrepInfo),
     published (startSimulation vrep name simRosStartSimulation.Build_Request
                  (world (ros s))) = msgs ++ [m] ->
     returned (bind (start vrep) (fun _ => @isRunning World) s) =
     Some (std_msgs.data (simulatorState m) =? 1)) /\
  (published (startSimulation vrep name simRosStartSimulation.Build_Request
                (world (ros s))) = [] ->
   returned (bind (start vrep) (fun _ => @isRunning World) s) =
   Some (running_ (deliver (pending (ros s)) (self s)))).
Proof.
  intros Hclient Hsub. unfold bind. rewrite start_exchange, isRunning_exchange.
  unfold returned. rewrite after_self, Hclient. unfold after. split.
  - intros msgs m Hpub. simpl in Hpub |- *. rewrite Hpub.
    match goal with
    | |- context [arrive (msgs ++ [m]) ?st] =>
        destruct (arrive_newest msgs m st Hsub) as (older & ->)
    end.
    now rewrite deliver_last.
  - intros Hpub. simpl in Hpub |- *. now rewrite Hpub.
Qed.

End Properties.

(** * The adapter against the stand-in simulator *)

(** A default-constructed adapter reaches nobody: the response keeps the
    zero it was constructed with, which [start] reads as success and
    [loadScene] as failure. *)
Example detached_start_and_loadScene :
  returned (start (mock (-1) 0 [] []) detached) = Some true /\
  returned (loadScene (mock 1 0 [] []) "scene.ttt" detached) = Some false /\
  sent (ros (state_of (start (mock (-1) 0 [] []) detached) detached)) = [].
Proof. repeat split. Qed.

(** The by-name [moveObject] sends the handle it was given, found or not. *)
Example moveObject_name_missing_handle :
  returned (moveObject_name (mock 0 (-1) [] []) "Cup" 1%float 2%float 3%float attached)
  = Some true /\
  sent (ros (state_of
               (moveObject_name (mock 0 (-1) [] []) "Cup" 1%float 2%float 3%float attached)
               attached))
  = [GetObjectHandleCall "vrep/simRosGetObjectHandle"
       {| simRosGetObjectHandle.objectName := "Cup" |};
     SetObjectPositionCall "vrep/simRosSetObjectPosition"
       {| simRosSetObjectPosition.handle := -1;
          simRosSetObjectPosition.relativeToObjectHandle := -1;
          simRosSetObjectPosition.position :=
            {| geometry_msgs.x := 1%float; geometry_msgs.y := 2%float;
               geometry_msgs.z := 3%float |} |}].
Proof. split; reflexivity. Qed.

(** The queue of size 1 holds the newest notification only. *)
Example queue_of_one :
  pending (ros (arrive [info 1; info 0; info 1; info 3] attached)) = [info 3].
Proof. reflexivity. Qed.

(** Notifications published during a call wait in the queue; the flag
    moves when [isRunning] drains it. *)
Example published_then_drained :
  running_ (self (state_of (start (mock 1 0 [] [info 1]) attached) attached)) = false /\
  returned (isRunning (state_of (start (mock 1 0 [] [info 1]) attached) attached))
  = Some true.
Proof. split; reflexivity. Qed.

Example copyObject_first_of_two :
  returned (copyObject (mock 0 0 [42; 43] []) 5 attached) = Some 42 /\
  returned (copyObject (mock 0 0 [] []) 5 attached) = None /\
  returned (copyObject (mock 0 0 [42] []) 5 detached) = None.
Proof. repeat split. Qed.

Example getHandle_and_getPose_pass_through :
  returned (getHandle (mock 0 17 [] []) "Cup" attached) = Some 17 /\
  returned (getPose (mock 0 17 [] []) 17 attached) = Some blank_pose /\
  sent (ros (state_of (getPose (mock 0 17 [] []) (2 ^ 32 + 17) attached) attached))
  = [GetObjectPoseCall "vrep/simRosGetObjectPose"
       {| simRosGetObjectPose.handle := 17;
          simRosGetObjectPose.relativeToObjectHandle := -1 |}].
Proof. repeat split. Qed.

Example loadScene_package_path :
  sent (ros (state_of
               (loadScene_package (mock 1 0 [] []) mock_getPath "tag" "tag.ttt" "tapir"
                  attached)
               attached))
  = [LoadSceneCall "vrep/simRosLoadScene"
       {| simRosLoadScene.fileName := "/opt/ros/tapir/problems/tag/tag.ttt" |}].
Proof. reflexivity. Qed.

(** ** Instances and refutations *)

Lemma mock_returns_result (R handle : Z) (copies : list Z) (news : list VrepInfo) :
  returns_result (mock R handle copies news) R.
Proof. repeat split. Qed.

(** The amended C1 at result code 5, on an adapter built on a node. *)
Lemma boolean_wrappers_follow_result_code_witness :
  returns_result (mock 5 0 [] []) 5 /\
  connected (self attached) = true /\
  returned (start (mock 5 0 [] []) attached) = Some true /\
  returned (stop (mock 5 0 [] []) attached) = Some true /\
  returned (moveObject (mock 5 0 [] []) 3 1%float 2%float 3%float attached) = Some true /\
  returned (loadScene (mock 5 0 [] []) "scene.ttt" attached) = Some false.
Proof.
  assert (H1 : returns_result (mock 5 0 [] []) 5) by (repeat split).
  assert (H2 : connected (self attached) = true) by reflexivity.
  destruct (boolean_wrappers_follow_result_code unit (mock 5 0 [] []) mock_getPath
              5 attached H1 H2) as (Hstart & Hstop & Hmove & _ & Hload & _).
  split; [exact H1|]. split; [exact H2|].
  split; [exact Hstart|]. split; [exact Hstop|].
  split; [exact (Hmove 3 1%float 2%float 3%float)|exact (Hload "scene.ttt")].
Defined.

(** C1 as stated fails at result code 0: the simulator returns 0 to every
    call, [0 != -1] is true, [start] returns true and [loadScene] returns
    false. *)
Lemma loadScene_is_not_result_neq_minus_1 :
  returns_result (mock 0 0 [] []) 0 /\
  returned (start (mock 0 0 [] []) attached) = Some (negb (0 =? -1)) /\
  returned (loadScene (mock 0 0 [] []) "scene.ttt" attached) = Some false /\
  returned (loadScene (mock 0 0 [] []) "scene.ttt" attached) <> Some (negb (0 =? -1)).
Proof.
  split; [apply mock_returns_result|].
  split; [reflexivity|]. split; [reflexivity|]. discriminate.
Qed.

(** C2 as stated fails at [getHandle]: asked for an object the simulator
    does not know, it hands the caller the [long] -1, and no boolean. *)
Lemma getHandle_surfaces_no_boolean :
  returned (perform (mock 0 (-1) [] []) mock_getPath (GetHandle "Cup") attached)
  = Some (Long (-1)) /\
  ~ (exists b : bool,
       returned (perform (mock 0 (-1) [] []) mock_getPath (GetHandle "Cup") attached)
       = Some (Bool b)).
Proof.
  split; [reflexivity|]. intros [b Hb]. discriminate Hb.
Qed.

(** C6 as stated fails at [start] and at [isRunning]: answered with result
    code 5, [start] hands back the boolean true, not the 5 of the response;
    [isRunning] hands back the flag without any request having gone out. *)
Lemma start_and_isRunning_return_no_field :
  simRosStartSimulation.result
    (answer (startClient_ (self attached)) (startSimulation (mock 5 0 [] []))
       simRosStartSimulation.new attached) = 5 /\
  returned (perform (mock 5 0 [] []) mock_getPath Start attached) = Some (Bool true) /\
  returned (perform (mock 5 0 [] []) mock_getPath Start attached) <> Some (Long 5) /\
  returned (perform (mock 5 0 [] []) mock_getPath IsRunning attached)
  = Some (Bool false) /\
  sent (ros (state_of (perform (mock 5 0 [] []) mock_getPath IsRunning attached)
               attached)) = [].
Proof.
  split; [reflexivity|]. split; [reflexivity|]. split; [discriminate|].
  split; reflexivity.
Qed.

(** C10 at [start], while the simulator publishes a running status: the
    notification is queued and the flag stays. *)
Lemma only_infoCallback_writes_running__witness :
  Start <> IsRunning /\
  exists v s',
    perform (mock 0 0 [] [info 1]) mock_getPath Start attached = Ok v s' /\
    pending (ros s') = [info 1] /\
    running_ (self s') = running_ (self attached).
Proof.
  assert (Hop : Start <> IsRunning) by discriminate.
  split; [exact Hop|].
  eexists. eexists. split; [reflexivity|]. split; [reflexivity|].
  exact (proj2 (proj2 (only_infoCallback_writes_running_ unit (mock 0 0 [] [info 1])
                         mock_getPath))
           Start attached _ _ Hop eq_refl).
Defined.

(** Three notifications into a queue of one, then [isRunning]. *)
Lemma isRunning_after_arrivals_witness :
  infoSub_ (self attached) <> None /\
  returned (isRunning (arrive ([info 1; info 0] ++ [info 1]) attached)) = Some true.
Proof.
  assert (Hsub : infoSub_ (self attached) <> None) by discriminate.
  split; [exact Hsub|].
  exact (isRunning_after_arrivals unit [info 1; info 0] (info 1) attached Hsub).
Defined.

(** ** Instances of the coverage properties *)

(** Handle 17 to the three by-handle methods. *)
Lemma handle_in_range_sent_as_is_witness :
  in_int_range 17 /\
  (exists moved s',
     moveObject (mock 0 0 [99] []) 17 1%float 2%float 3%float attached = Ok moved s' /\
     sent (ros s') =
     [SetObjectPositionCall "vrep/simRosSetObjectPosition"
        {| simRosSetObjectPosition.handle := 17;
           simRosSetObjectPosition.relativeToObjectHandle := -1;
           simRosSetObjectPosition.position :=
             {| geometry_msgs.x := 1%float; geometry_msgs.y := 2%float;
                geometry_msgs.z := 3%float |} |}]) /\
  sent (ros (state_of (copyObject (mock 0 0 [99] []) 17 attached) attached)) =
  [CopyPasteObjectsCall "vrep/simRosCopyPasteObjects"
     {| simRosCopyPasteObjects.objectHandles := [17] |}].
Proof.
  assert (Hrange : in_int_range 17) by (unfold in_int_range; lia).
  destruct (handle_in_range_sent_as_is unit (mock 0 0 [99] []) 17
              1%float 2%float 3%float attached Hrange)
    as ((moved & s' & Hrun & Hsent) & _ & Hcopy).
  split; [exact Hrange|]. split.
  - exists moved, s'. split; [exact Hrun|exact Hsent].
  - exact Hcopy.
Defined.

(** An unreachable simulator, and an adapter with no node. *)
Lemma unanswered_call_and_the_boolean_witness :
  returned (start mock_silent attached) = Some true /\
  returned (loadScene mock_silent "scene.ttt" attached) = Some false /\
  returned (stop (mock (-1) 0 [] []) detached) = Some true.
Proof.
  destruct (unanswered_call_and_the_boolean unit mock_silent 0
              0%float 0%float 0%float "scene.ttt" attached) as (Hstart & _ & _ & Hload).
  destruct (unanswered_call_and_the_boolean unit (mock (-1) 0 [] []) 0
              0%float 0%float 0%float "scene.ttt" detached) as (_ & Hstop & _).
  split; [exact (Hstart eq_refl)|]. split; [exact (Hload eq_refl)|exact (Hstop I)].
Defined.

Lemma unanswered_call_and_the_value_witness :
  returned (getHandle mock_silent "Cup" attached) = Some 0 /\
  returned (getPose mock_silent 17 attached) = Some blank_pose /\
  copyObject (mock 0 0 [99] []) 17 detached = Undefined.
Proof.
  destruct (unanswered_call_and_the_value unit mock_silent "Cup" 17 attached)
    as (Hhandle & Hpose & _).
  destruct (unanswered_call_and_the_value unit (mock 0 0 [99] []) "Cup" 17 detached)
    as (_ & _ & Hcopy).
  split; [exact (Hhandle eq_refl)|]. split; [exact (Hpose eq_refl)|exact (Hcopy I)].
Defined.

(** [isRunning] with a notification waiting: the flag moves, the wiring
    does not. *)
Lemma methods_never_rewire_witness :
  exists v s',
    perform (mock 0 0 [] []) mock_getPath IsRunning notified = Ok v s' /\
    running_ (self notified) = false /\
    running_ (self s') = true /\
    wiring (self s') = wiring (self notified) /\
    connected (self s') = true.
Proof.
  eexists. eexists. split; [reflexivity|].
  destruct (methods_never_rewire unit (mock 0 0 [] []) mock_getPath IsRunning
              notified _ _ [] eq_refl) as (Hw & _ & Hc).
  split; [reflexivity|]. split; [reflexivity|]. split; [exact Hw|].
  rewrite Hc. reflexivity.
Defined.

(** The by-name [moveObject], called after a [start], on the adapter
    [setRosNode] wired. *)
Lemma requests_go_to_their_service_witness :
  setRosNode 7%nat {| self := members; ros := boot tt |} = Ok tt attached /\
  wiring (self (state_of (start (mock 0 5 [] []) attached) attached))
  = wiring (self attached) /\
  match
    final (perform (mock 0 5 [] []) mock_getPath
             (MoveObjectName "Cup" 1%float 2%float 3%float)
             (state_of (start (mock 0 5 [] []) attached) attached))
  with
  | Some s' =>
      exists l,
        sent (ros s') =
        sent (ros (state_of (start (mock 0 5 [] []) attached) attached)) ++ l /\
        forallb addressed l = true /\
        List.length l = 2%nat
  | None => exists handle, MoveObjectName "Cup" 1%float 2%float 3%float = CopyObject handle
  end.
Proof.
  assert (H1 : setRosNode 7%nat {| self := members; ros := boot tt |}
               = Ok tt attached) by reflexivity.
  assert (H2 : wiring (self (state_of (start (mock 0 5 [] []) attached) attached))
               = wiring (self attached)) by reflexivity.
  split; [exact H1|]. split; [exact H2|].
  exact (requests_go_to_their_service unit (mock 0 5 [] []) mock_getPath 7%nat
           _ _ _ (MoveObjectName "Cup" 1%float 2%float 3%float) H1 H2).
Defined.

(** An object the simulator does not know. *)
Lemma moveObject_name_sends_looked_up_handle_witness :
  in_int_range (-1) /\
  exists moved s',
    moveObject_name (mock 0 (-1) [] []) "Cup" 1%float 2%float 3%float attached
    = Ok moved s' /\
    sent (ros s') =
    [GetObjectHandleCall "vrep/simRosGetObjectHandle"
       {| simRosGetObjectHandle.objectName := "Cup" |};
     SetObjectPositionCall "vrep/simRosSetObjectPosition"
       {| simRosSetObjectPosition.handle := -1;
          simRosSetObjectPosition.relativeToObjectHandle := -1;
          simRosSetObjectPosition.position :=
            {| geometry_msgs.x := 1%float; geometry_msgs.y := 2%float;
               geometry_msgs.z := 3%float |} |}].
Proof.
  assert (Hrange : in_int_range (-1)) by (unfold in_int_range; lia).
  split; [exact Hrange|].
  exact (moveObject_name_sends_looked_up_handle unit (mock 0 (-1) [] [])
           "Cup" 1%float 2%float 3%float attached
           "vrep/simRosGetObjectHandle" "vrep/simRosSetObjectPosition"
           {| simRosGetObjectHandle.handle := -1 |}
           eq_refl eq_refl eq_refl Hrange).
Defined.

(** Two notifications published during [start], two more afterwards: one
    is left in the queue. *)
Lemma queue_stays_within_witness :
  queue_within attached /\
  exists v s',
    perform (mock 0 0 [] [info 1; info 0]) mock_getPath Start attached = Ok v s' /\
    (List.length (pending (ros (arrive [info 1; info 1] s'))) <= 1)%nat.
Proof.
  assert (Hq : queue_within attached) by (unfold queue_within; simpl; lia).
  split; [exact Hq|].
  eexists. eexists. split; [reflexivity|].
  destruct (queue_stays_within unit (mock 0 0 [] [info 1; info 0]) mock_getPath
              Start attached _ _ [info 1; info 1] Hq eq_refl) as (_ & _ & Hone).
  exact (Hone eq_refl).
Defined.

(** The simulator publishes "stopped" then "running" while [start] is
    blocked. *)
Lemma start_then_isRunning_witness :
  startClient_ (self attached) = Some "vrep/simRosStartSimulation" /\
  infoSub_ (self attached) <> None /\
  returned (bind (start (mock (-1) 0 [] [info 0; info 1])) (fun _ => @isRunning unit)
              attached) = Some true.
Proof.
  assert (Hsub : infoSub_ (self attached) <> None) by discriminate.
  split; [reflexivity|]. split; [exact Hsub|].
  destruct (start_then_isRunning unit (mock (-1) 0 [] [info 0; info 1])
              "vrep/simRosStartSimulation" attached eq_refl Hsub) as (Hnew & _).
  exact (Hnew [info 0] (info 1) eq_refl).
Defined.
